(** * Global risk dashboard: the selection-driven recompute protocol

    A shallow embedding of [app.py]: the start-up code (data load,
    global aggregates, regression trace) and the single Dash callback
    [update_dashboard].

    Modelling conventions.
    - A pandas [DataFrame] is its list of column labels together with its
      rows; [df[name]] raises [KeyError] when the label is absent.  The
      columns, when present, carry the dtypes of the input table:
      [Country] strings, [Year] integers, the other three numbers.
    - Numbers are exact rationals ([Qc]); an aggregate is a [number],
      which adds [NaN] (the mean of nothing).  Rounding of binary
      floating point is outside the model.
    - Exceptions are values of [Exn]; fallible code lives in [result].
    - The callback reads the module-level names of the process through a
      state-and-error monad over [Globals].
    - Plotly figures are records of what the code puts in them: the
      traces, in order, and the layout settings, in order.
    - The trendline fit of [plotly.express] is a parameter of the
      development ([px_scatter_ols]). *)

From Stdlib Require Import ZArith QArith Qcanon Ascii String Sorted.
From stdpp Require Import base list sets strings pretty numbers.

Set Default Proof Using "Type".

(** ** Numbers and their formatting *)

Inductive number : Type :=
  | NaN
  | Fin (q : Qc).

Definition qz (z : Z) : Qc := Qc_of_Z z.
Definition qfrac (a : Z) (b : positive) : Qc := Q2Qc (a # b).

(** Nearest integer to [a / b], ties to the even neighbour, for [0 <= a]. *)
Definition round_half_even (a : Z) (b : positive) : Z :=
  let q := (a / Zpos b)%Z in
  let r := (a mod Zpos b)%Z in
  match (2 * r ?= Zpos b)%Z with
  | Lt => q
  | Gt => (q + 1)%Z
  | Eq => if Z.even q then q else (q + 1)%Z
  end.

(** The digits of the integer part, least significant first, with the
    thousands separator of the [,] format option. *)
Fixpoint thousands (rev_digits : list ascii) : list ascii :=
  match rev_digits with
  | a :: b :: c :: rest =>
      match rest with
      | [] => rev_digits
      | _ :: _ => a :: b :: c :: ","%char :: thousands rest
      end
  | _ => rev_digits
  end.

Definition group_digits (s : string) : string :=
  string_of_list_ascii (rev (thousands (rev (list_ascii_of_string s)))).

(** Left padding with zeros up to [width] characters. *)
Definition zero_pad (width : nat) (s : string) : string :=
  string_of_list_ascii (replicate (width - String.length s) "0"%char) +:+ s.

(** [format(x, ",.<prec>f")] when [comma], [format(x, ".<prec>f")] otherwise. *)
Definition format_f (comma : bool) (prec : nat) (x : number) : string :=
  match x with
  | NaN => "nan"
  | Fin q =>
      let scale := (10 ^ Z.of_nat prec)%Z in
      let n := round_half_even (Z.abs (Qnum (this q)) * scale) (Qden (this q)) in
      let int_part := pretty (n / scale)%Z in
      let int_part := if comma then group_digits int_part else int_part in
      let frac_part :=
        match prec with
        | O => ""
        | S _ => "." +:+ zero_pad prec (pretty (n mod scale)%Z)
        end in
      (if decide (Qnum (this q) < 0)%Z then "-" else "") +:+ int_part +:+ frac_part
  end.

(** f"{kpi_fat:,.0f}" and f"{kpi_teis:.3f}". *)
Definition format_fatalities : number -> string := format_f true 0.
Definition format_teis : number -> string := format_f false 3.

(** ** Exceptions *)

Inductive Exn : Type :=
  | KeyError (key : string)
  | IndexError
  | OtherError (msg : string).

Inductive result (A : Type) : Type :=
  | Ok (a : A)
  | Raise (e : Exn).
Arguments Ok {A} a.
Arguments Raise {A} e.

#[global] Instance result_ret : MRet result := @Ok.
#[global] Instance result_bind : MBind result := λ A B f r,
  match r with
  | Ok a => f a
  | Raise e => Raise e
  end.
#[global] Instance result_fmap : FMap result := λ A B f r,
  match r with
  | Ok a => Ok (f a)
  | Raise e => Raise e
  end.

(** ** The table *)

Record Row : Type := {
  Country : string;
  Year : Z;
  TEIS : Qc;
  fatalities : Qc;
  GDP_growth_pct : Qc;
}.

Record DataFrame : Type := {
  columns : list string;
  rows : list Row;
}.

(** [pd.DataFrame()]: no columns, no rows. *)
Definition DataFrame_empty : DataFrame := {| columns := []; rows := [] |}.

Definition all_columns : list string :=
  ["Country"; "Year"; "TEIS"; "fatalities"; "GDP_growth_pct"].

(** The frame [read_csv] builds from a table that has the five columns. *)
Definition frame (D : list Row) : DataFrame :=
  {| columns := all_columns; rows := D |}.

(** *** The pandas operations the program uses *)

Module pd.

(** [df[name]] *)
Definition getitem {A : Type} (df : DataFrame) (name : string) (field : Row -> A)
  : result (list A) :=
  if decide (name ∈ columns df) then Ok (field <$> rows df) else Raise (KeyError name).

Definition col_Country (df : DataFrame) := getitem df "Country" Country.
Definition col_Year (df : DataFrame) := getitem df "Year" Year.
Definition col_TEIS (df : DataFrame) := getitem df "TEIS" TEIS.
Definition col_fatalities (df : DataFrame) := getitem df "fatalities" fatalities.
Definition col_GDP_growth_pct (df : DataFrame) := getitem df "GDP_growth_pct" GDP_growth_pct.

(** [len(df)] *)
Definition len (df : DataFrame) : nat := length (rows df).

(** [df.index]: the RangeIndex of a frame that was read from a file. *)
Definition index (df : DataFrame) : list nat := seq 0 (len df).

(** [xs[mask]]: the elements at the positions where the mask is true. *)
Definition select {A : Type} (xs : list A) (mask : list bool) : list A :=
  fst <$> List.filter snd (zip xs mask).

(** [df[mask]] *)
Definition boolean_mask (df : DataFrame) (mask : list bool) : DataFrame :=
  {| columns := columns df; rows := select (rows df) mask |}.

(** [df.empty]: some axis has length 0. *)
Definition empty (df : DataFrame) : bool :=
  bool_decide (rows df = []) || bool_decide (columns df = []).

(** [series == value], element by element. *)
Definition eq_mask (series : list string) (value : string) : list bool :=
  (λ c, bool_decide (c = value)) <$> series.

(** *** groupby: the groups in ascending order of their key, the rows of
    a group in the order of the frame. *)
Section GroupBy.
Context {K : Type} (cmp : K -> K -> comparison).

Fixpoint add_to_group (k : K) (r : Row) (gs : list (K * list Row))
  : list (K * list Row) :=
  match gs with
  | [] => [(k, [r])]
  | (k', rs) :: gs' =>
      match cmp k k' with
      | Lt => (k, [r]) :: gs
      | Eq => (k', rs ++ [r]) :: gs'
      | Gt => (k', rs) :: add_to_group k r gs'
      end
  end.

Definition groups (keys : list K) (rs : list Row) : list (K * list Row) :=
  foldl (λ gs kr, add_to_group kr.1 kr.2 gs) [] (zip keys rs).
End GroupBy.

(** [Series.sum()]: the sum of no values is 0. *)
Definition sum (xs : list Qc) : number :=
  Fin (foldr Qcplus (qz 0) xs).

(** [Series.mean()]: the mean of no values is NaN. *)
Definition mean (xs : list Qc) : number :=
  match xs with
  | [] => NaN
  | _ :: _ => Fin (foldr Qcplus (qz 0) xs / qz (Z.of_nat (length xs)))%Qc
  end.

End pd.

Record TrendRow : Type := {
  t_Year : Z;
  t_TEIS : number;
  t_fatalities : number;
}.

Definition trend_row (g : Z * list Row) : TrendRow :=
  {| t_Year := g.1;
     t_TEIS := pd.mean (TEIS <$> g.2);
     t_fatalities := pd.sum (fatalities <$> g.2) |}.

(** [df.groupby("Year").agg(TEIS=("TEIS", "mean"),
    fatalities=("fatalities", "sum")).reset_index()] *)
Definition yearly (df : DataFrame) : result (list TrendRow) :=
  keys ← pd.col_Year df;
  _ ← pd.col_TEIS df;
  _ ← pd.col_fatalities df;
  mret (trend_row <$> pd.groups Z.compare keys (rows df)).

(** [df.groupby("Country")["TEIS"].mean().reset_index()] *)
Definition country_mean_teis (df : DataFrame) : result (list (string * number)) :=
  keys ← pd.col_Country df;
  _ ← pd.col_TEIS df;
  mret ((λ g : string * list Row, (g.1, pd.mean (TEIS <$> g.2)))
          <$> pd.groups String.compare keys (rows df)).

(** ** Figures *)

Inductive Array : Type :=
  | Ints (l : list Z)
  | Floats (l : list Qc)
  | Numbers (l : list number)
  | Strings (l : list string).

Inductive Setting : Type :=
  | SStr (s : string)
  | SInt (z : Z)
  | SNum (q : Qc)
  | SBool (b : bool).

(** The properties of a [go.Scatter] trace that the program sets. *)
Record Scatter : Type := {
  sc_x : option Array;
  sc_y : option Array;
  sc_mode : option string;
  sc_marker_size : option Z;
  sc_marker_color : option (list string);
  sc_marker_opacity : option (list Qc);
  sc_line_color : option string;
  sc_line_dash : option string;
  sc_line_width : option Z;
  sc_text : option (list string);
  sc_name : option string;
}.

(** [go.Scatter()] *)
Definition go_Scatter : Scatter :=
  {| sc_x := None; sc_y := None; sc_mode := None; sc_marker_size := None;
     sc_marker_color := None; sc_marker_opacity := None; sc_line_color := None;
     sc_line_dash := None; sc_line_width := None; sc_text := None; sc_name := None |}.

Inductive Trace : Type :=
  | TScatter (s : Scatter)
  | TBar (x : list Z) (y : list number) (name marker_color : string) (opacity : Qc)
  | TChoropleth (locations : list string) (z : list number)
                (locationmode color_continuous_scale : string).

Record Figure : Type := {
  data : list (Trace * bool);          (* the trace, and whether it is on the secondary y axis *)
  layout : list (string * Setting);
}.

(** [go.Figure()] *)
Definition go_Figure : Figure := {| data := []; layout := [] |}.

(** [make_subplots(specs=[[{"secondary_y": True}]])] *)
Definition make_subplots : Figure :=
  {| data := []; layout := [("specs.secondary_y", SBool true)] |}.

Definition add_trace (fig : Figure) (t : Trace) (secondary_y : bool) : Figure :=
  {| data := data fig ++ [(t, secondary_y)]; layout := layout fig |}.

(** [update_layout], [update_xaxes], [update_yaxes]: the settings, in the
    order of the calls. *)
Definition update_layout (fig : Figure) (settings : list (string * Setting)) : Figure :=
  {| data := data fig; layout := layout fig ++ settings |}.

(** [px.choropleth(map_agg, locations="Country",
    locationmode="country names", color="TEIS",
    color_continuous_scale="Reds")] *)
Definition px_choropleth (map_agg : list (string * number)) : Figure :=
  {| data := [(TChoropleth (map_agg.*1) (map_agg.*2) "country names" "Reds", false)];
     layout := [] |}.

(** A plotly trace object defines neither [__bool__] nor [__len__]: its
    truth value is Python's default for objects. *)
Definition truthy_trace (t : Trace) : bool := true.

(** ** The inputs and the outputs of the callback *)

Record Point : Type := { location : string }.
Record ClickData : Type := { points : list Point }.

(** Truth value of [clickData]: [None] is false, a payload (a dict with
    the key "points") is true. *)
Definition truthy (clickData : option ClickData) : bool :=
  match clickData with
  | None => false
  | Some _ => true
  end.

(** [clickData["points"][0]["location"]] *)
Definition click_location (clickData : option ClickData) : result string :=
  match clickData with
  | None => Raise (OtherError "'NoneType' object is not subscriptable")
  | Some cd =>
      match points cd with
      | [] => Raise IndexError
      | p :: _ => Ok (location p)
      end
  end.

Record ViewModel : Type := {
  out_map_chart : Figure;
  out_trend_chart : Figure;
  out_scatter_chart : Figure;
  out_kpi_country : string;
  out_kpi_fatalities : string;
  out_kpi_teis : string;
}.

(** [l[i] = v] on a Python list *)
Definition setitem {A : Type} (l : list A) (i : nat) (v : A) : result (list A) :=
  if decide (i < length l) then Ok (<[i:=v]> l) else Raise IndexError.

(** The loop
    [for idx in ...: scatter_colors[idx] = "red"; scatter_opacity[idx] = 1.0] *)
Fixpoint highlight (idxs : list nat) (scatter_colors : list string)
    (scatter_opacity : list Qc) : result (list string * list Qc) :=
  match idxs with
  | [] => Ok (scatter_colors, scatter_opacity)
  | idx :: rest =>
      scatter_colors ← setitem scatter_colors idx "red";
      scatter_opacity ← setitem scatter_opacity idx (qz 1);
      highlight rest scatter_colors scatter_opacity
  end.

(** ** The process state *)

Record Globals : Type := {
  df : DataFrame;
  global_fatalities : number;
  global_teisc : number;
  global_trend : list TrendRow;
  trendline_trace : Trace;
}.

(** Code that reads (and could write) the module-level names and may raise. *)
Definition M (A : Type) : Type := Globals -> result A * Globals.

#[global] Instance M_ret : MRet M := λ A a g, (Ok a, g).
#[global] Instance M_bind : MBind M := λ A B f m g,
  match m g with
  | (Ok a, g') => f a g'
  | (Raise e, g') => (Raise e, g')
  end.

Definition read {A : Type} (name : Globals -> A) : M A := λ g, (Ok (name g), g).
Definition lift {A : Type} (r : result A) : M A := λ g, (r, g).

(** ** Start-up: load, aggregates, regression trace *)

(** Lines 10-15: the outcome of [pd.read_csv] is the input; the second
    component is what is printed. *)
Definition load (read_csv : result DataFrame) : DataFrame * list string :=
  match read_csv with
  | Ok d => (d, [])
  | Raise _ => (DataFrame_empty, ["Error: csv file not found."])
  end.

Section Startup.
(** [px.scatter(df, x=..., y=..., trendline="ols").data] on the two
    columns: the traces of the figure, or the exception of the fit. *)
Variable px_scatter_ols : list Qc -> list Qc -> result (list Scatter).

Definition restyle (t : Scatter) : Scatter :=
  {| sc_x := sc_x t; sc_y := sc_y t; sc_mode := sc_mode t;
     sc_marker_size := sc_marker_size t; sc_marker_color := sc_marker_color t;
     sc_marker_opacity := sc_marker_opacity t;
     sc_line_color := Some "red";
     sc_line_dash := Some "dash";
     sc_line_width := sc_line_width t;
     sc_text := sc_text t;
     sc_name := Some "Structural Drag (Global)" |}.

(** Lines 27-34. *)
Definition fit_trendline (df : DataFrame) : Trace :=
  let attempt : result Scatter :=
    xs ← pd.col_TEIS df;
    ys ← pd.col_GDP_growth_pct df;
    trendline_fig_data ← px_scatter_ols xs ys;
    match trendline_fig_data !! 1%nat with
    | Some t => Ok (restyle t)
    | None => Raise IndexError
    end in
  match attempt with
  | Ok t => TScatter t
  | Raise _ => TScatter go_Scatter
  end.

(** Lines 17-34 on the loaded frame. *)
Definition precompute (df : DataFrame) : result Globals :=
  global_fatalities ← pd.sum <$> pd.col_fatalities df;
  global_teisc ← pd.mean <$> pd.col_TEIS df;
  global_trend ← yearly df;
  mret {| df := df;
          global_fatalities := global_fatalities;
          global_teisc := global_teisc;
          global_trend := global_trend;
          trendline_trace := fit_trendline df |}.

(** The module body up to the callback: what is printed, and the
    process state or the exception that ends the import. *)
Definition startup (read_csv : result DataFrame) : list string * result Globals :=
  let '(df, printed) := load read_csv in
  (printed, precompute df).
End Startup.

(** ** The callback *)

Definition build_map (map_agg : list (string * number)) : Figure :=
  update_layout (px_choropleth map_agg)
    [("margin.l", SInt 0); ("margin.r", SInt 0); ("margin.t", SInt 0); ("margin.b", SInt 0);
     ("uirevision", SStr "constant");
     ("geo.showframe", SBool false); ("geo.showcoastlines", SBool false);
     ("geo.projection.type", SStr "equirectangular")].

Definition build_trend (trend_df : list TrendRow) : Figure :=
  let fig_trend := make_subplots in
  let fig_trend :=
    add_trace fig_trend
      (TBar (t_Year <$> trend_df) (t_fatalities <$> trend_df)
            "Fatalities" "#bdc3c7" (qfrac 7 10)) false in
  let fig_trend :=
    add_trace fig_trend
      (TScatter {| sc_x := Some (Ints (t_Year <$> trend_df));
                   sc_y := Some (Numbers (t_TEIS <$> trend_df));
                   sc_mode := None; sc_marker_size := None; sc_marker_color := None;
                   sc_marker_opacity := None;
                   sc_line_color := Some "#27ae60"; sc_line_dash := None;
                   sc_line_width := Some 3%Z;
                   sc_text := None; sc_name := Some "TEIS Intensity" |}) true in
  let fig_trend :=
    update_layout fig_trend
      [("margin.l", SInt 0); ("margin.r", SInt 0); ("margin.t", SInt 10); ("margin.b", SInt 0);
       ("legend.orientation", SStr "h"); ("legend.y", SNum (qfrac 11 10));
       ("legend.x", SNum (qfrac 1 2)); ("legend.xanchor", SStr "center");
       ("plot_bgcolor", SStr "white")] in
  let fig_trend :=
    update_layout fig_trend
      [("yaxis.title.text", SStr "Fatalities"); ("yaxis.showgrid", SBool false)] in
  update_layout fig_trend
    [("yaxis2.title.text", SStr "TEIS Index"); ("yaxis2.showgrid", SBool false)].

(** The markers trace of the scatter chart. *)
Definition countries_trace (xs ys : list Qc) (scatter_colors : list string)
    (scatter_opacity : list Qc) (text : list string) : Trace :=
  TScatter {| sc_x := Some (Floats xs); sc_y := Some (Floats ys);
              sc_mode := Some "markers"; sc_marker_size := Some 8%Z;
              sc_marker_color := Some scatter_colors;
              sc_marker_opacity := Some scatter_opacity;
              sc_line_color := None; sc_line_dash := None; sc_line_width := None;
              sc_text := Some text; sc_name := Some "Countries" |}.

Definition finish_scatter (fig_scatter : Figure) : Figure :=
  let fig_scatter :=
    update_layout fig_scatter
      [("xaxis.title.text", SStr "Risk Intensity (TEIS)");
       ("yaxis.title.text", SStr "GDP Growth (%)");
       ("margin.l", SInt 0); ("margin.r", SInt 0); ("margin.t", SInt 10); ("margin.b", SInt 0);
       ("plot_bgcolor", SStr "white"); ("showlegend", SBool false)] in
  let fig_scatter :=
    update_layout fig_scatter
      [("xaxis.showgrid", SBool true); ("xaxis.gridcolor", SStr "#f0f0f0")] in
  update_layout fig_scatter
    [("yaxis.showgrid", SBool true); ("yaxis.gridcolor", SStr "#f0f0f0")].

(** Lines 137-172: the selection branch. *)
Definition select_state (clickData : option ClickData) (triggered_id : option string)
  : M (string * list TrendRow * number * number * list string * list Qc) :=
  if negb (truthy clickData) || bool_decide (triggered_id = Some "btn-reset") then
    let selected_country := "Global View" in
    trend_df ← read global_trend;
    kpi_fat ← read global_fatalities;
    kpi_teis ← read global_teisc;
    d ← read df;
    let scatter_colors := replicate (pd.len d) "steelblue" in
    d ← read df;
    let scatter_opacity := replicate (pd.len d) (qfrac 6 10) in
    mret (selected_country, trend_df, kpi_fat, kpi_teis, scatter_colors, scatter_opacity)
  else
    selected_country ← lift (click_location clickData);
    d ← read df;
    country ← lift (pd.col_Country d);
    let df_filtered := pd.boolean_mask d (pd.eq_mask country selected_country) in
    trend_df ← (if pd.empty df_filtered then read global_trend
                else lift (yearly df_filtered));
    kpi_fat ← lift (pd.sum <$> pd.col_fatalities df_filtered);
    kpi_teis ← lift (pd.mean <$> pd.col_TEIS df_filtered);
    d ← read df;
    let scatter_colors := replicate (pd.len d) "lightgrey" in
    d ← read df;
    let scatter_opacity := replicate (pd.len d) (qfrac 3 10) in
    d ← read df;
    country ← lift (pd.col_Country d);
    '(scatter_colors, scatter_opacity) ←
      lift (highlight (pd.select (pd.index d) (pd.eq_mask country selected_country))
                      scatter_colors scatter_opacity);
    mret (selected_country, trend_df, kpi_fat, kpi_teis, scatter_colors, scatter_opacity).

(** [update_dashboard(clickData, n_clicks)]; [triggered_id] is
    [ctx.triggered_id], the id of the input that fired the callback. *)
Definition update_dashboard (clickData : option ClickData) (n_clicks : option nat)
    (triggered_id : option string) : M ViewModel :=
  '(selected_country, trend_df, kpi_fat, kpi_teis, scatter_colors, scatter_opacity) ←
    select_state clickData triggered_id;
  (* 1. map *)
  d ← read df;
  map_agg ← lift (country_mean_teis d);
  let fig_map := build_map map_agg in
  (* 2. trend *)
  let fig_trend := build_trend trend_df in
  (* 3. scatter *)
  let fig_scatter := go_Figure in
  trendline ← read trendline_trace;
  let fig_scatter :=
    if truthy_trace trendline then add_trace fig_scatter trendline false
    else fig_scatter in
  d ← read df;
  xs ← lift (pd.col_TEIS d);
  d ← read df;
  ys ← lift (pd.col_GDP_growth_pct d);
  d ← read df;
  text ← lift (pd.col_Country d);
  let fig_scatter :=
    add_trace fig_scatter
      (countries_trace xs ys scatter_colors scatter_opacity text) false in
  let fig_scatter := finish_scatter fig_scatter in
  mret {| out_map_chart := fig_map;
          out_trend_chart := fig_trend;
          out_scatter_chart := fig_scatter;
          out_kpi_country := selected_country;
          out_kpi_fatalities := format_fatalities kpi_fat;
          out_kpi_teis := format_teis kpi_teis |}.

(** ** The layout *)

(** The three KPI headings of [app.layout], by component id, with the
    children they are created with (lines 84-96). *)
Definition layout_kpis (g : Globals) : list (string * string) :=
  [("kpi-country", "Global View");
   ("kpi-fatalities", format_fatalities (global_fatalities g));
   ("kpi-teis", format_teis (global_teisc g))].

(** The three KPI outputs of the callback, by the component id of
    their [Output] (lines 129-131). *)
Definition kpi_outputs (vm : ViewModel) : list (string * string) :=
  [("kpi-country", out_kpi_country vm);
   ("kpi-fatalities", out_kpi_fatalities vm);
   ("kpi-teis", out_kpi_teis vm)].

(** ** Vocabulary of the statements *)

(** The rows of a table whose [Country] is [c]. *)
Definition matching (c : string) (D : list Row) : list Row :=
  filter (λ r, Country r = c) D.



(** A payload whose first point is [c]. *)
Definition click (c : string) (others : list Point) : option ClickData :=
  Some {| points := {| location := c |} :: others |}.


(** The yearly roll-up of a table, and the three charts over a table. *)
Definition trend_of (D : list Row) : list TrendRow :=
  trend_row <$> pd.groups Z.compare (Year <$> D) D.

Definition map_of (D : list Row) : Figure :=
  build_map ((λ g : string * list Row, (g.1, pd.mean (TEIS <$> g.2)))
               <$> pd.groups String.compare (Country <$> D) D).

Definition scatter_of (trendline : Trace) (D : list Row)
    (scatter_colors : list string) (scatter_opacity : list Qc) : Figure :=
  finish_scatter
    (add_trace (add_trace go_Figure trendline false)
       (countries_trace (TEIS <$> D) (GDP_growth_pct <$> D)
          scatter_colors scatter_opacity (Country <$> D)) false).

(** The view of the GLOBAL state and of the state FILTERED(c). *)
Definition global_view (g : Globals) (D : list Row) : ViewModel :=
  {| out_map_chart := map_of D;
     out_trend_chart := build_trend (global_trend g);
     out_scatter_chart :=
       scatter_of (trendline_trace g) D
         (replicate (length D) "steelblue") (replicate (length D) (qfrac 6 10));
     out_kpi_country := "Global View";
     out_kpi_fatalities := format_fatalities (global_fatalities g);
     out_kpi_teis := format_teis (global_teisc g) |}.

Definition filtered_view (g : Globals) (D : list Row) (c : string) : ViewModel :=
  {| out_map_chart := map_of D;
     out_trend_chart :=
       build_trend (if bool_decide (matching c D = []) then global_trend g
                    else trend_of (matching c D));
     out_scatter_chart :=
       scatter_of (trendline_trace g) D
         ((λ r, if bool_decide (Country r = c) then "red" else "lightgrey") <$> D)
         ((λ r, if bool_decide (Country r = c) then qz 1 else qfrac 3 10) <$> D);
     out_kpi_country := c;
     out_kpi_fatalities := format_fatalities (pd.sum (fatalities <$> matching c D));
     out_kpi_teis := format_teis (pd.mean (TEIS <$> matching c D)) |}.

(** The two-row table of the specification's example. *)
Definition example_table : list Row :=
  [ {| Country := "A"; Year := 2020; TEIS := qfrac 1 2; fatalities := qz 10;
       GDP_growth_pct := qz 2 |};
    {| Country := "B"; Year := 2020; TEIS := qfrac 9 10; fatalities := qz 100;
       GDP_growth_pct := qz (-1) |} ].

(** The same table read from a file that has no [Country] column. *)
Definition no_country_frame : DataFrame :=
  {| columns := ["Year"; "TEIS"; "fatalities"; "GDP_growth_pct"];
     rows := example_table |}.




(** The process state that start-up builds around a frame. *)
Definition state_of (px_scatter_ols : list Qc -> list Qc -> result (list Scatter))
    (d : DataFrame) : Globals :=
  {| df := d;
     global_fatalities := pd.sum (fatalities <$> rows d);
     global_teisc := pd.mean (TEIS <$> rows d);
     global_trend := trend_of (rows d);
     trendline_trace := fit_trendline px_scatter_ols d |}.

(** A computation that leaves the module-level names as they were. *)
Definition readonly {A : Type} (m : M A) : Prop := ∀ g, (m g).2 = g.

(** The fit is not available: [statsmodels] is not installed. *)
Definition no_statsmodels (xs ys : list Qc) : result (list Scatter) :=
  Raise (OtherError "No module named 'statsmodels'").

(** ** The monad only reads *)

Lemma readonly_ret {A} (a : A) : readonly (mret a).
Proof. intros g. reflexivity. Qed.

Lemma readonly_read {A} (name : Globals -> A) : readonly (read name).
Proof. intros g. reflexivity. Qed.

Lemma readonly_lift {A} (r : result A) : readonly (lift r).
Proof. intros g. reflexivity. Qed.

Lemma readonly_bind {A B} (m : M A) (f : A -> M B) :
  readonly m -> (∀ a, readonly (f a)) -> readonly (m ≫= f).
Proof.
  intros Hm Hf g. unfold mbind, M_bind.
  specialize (Hm g). destruct (m g) as [[a|e] g']; simpl in Hm; subst g'.
  - apply Hf.
  - reflexivity.
Qed.

Lemma readonly_if {A} (b : bool) (m1 m2 : M A) :
  readonly m1 -> readonly m2 -> readonly (if b then m1 else m2).
Proof. destruct b; auto. Qed.

Create HintDb readonly.
#[local] Hint Resolve readonly_ret readonly_read readonly_lift readonly_if : readonly.

Ltac readonly_steps :=
  repeat first
    [ apply readonly_bind; [ | intros ? ]
    | match goal with |- readonly (let '(_, _) := ?p in _) => destruct p end
    | solve [ auto with readonly ] ].

Lemma select_state_readonly clickData triggered_id :
  readonly (select_state clickData triggered_id).
Proof. unfold select_state. apply readonly_if; readonly_steps. Qed.


(** ** Masks, selection and the highlight loop *)

Lemma select_cons {A} (x : A) xs (b : bool) mask :
  pd.select (x :: xs) (b :: mask) = if b then x :: pd.select xs mask else pd.select xs mask.
Proof. unfold pd.select. simpl. destruct b; reflexivity. Qed.

Lemma eq_mask_length series value : length (pd.eq_mask series value) = length series.
Proof. unfold pd.eq_mask. apply length_fmap. Qed.

Lemma select_matching (c : string) (D : list Row) :
  pd.select D (pd.eq_mask (Country <$> D) c) = matching c D.
Proof.
  unfold matching, pd.eq_mask. induction D as [|r D IH]; [reflexivity|].
  rewrite !fmap_cons, select_cons, IH, filter_cons.
  destruct (decide (Country r = c)) as [E|E].
  - rewrite bool_decide_eq_true_2 by exact E. reflexivity.
  - rewrite bool_decide_eq_false_2 by exact E. reflexivity.
Qed.

Lemma setitem_middle {A} (pre : list A) (x v : A) (post : list A) :
  setitem (pre ++ x :: post) (length pre) v = Ok (pre ++ v :: post).
Proof.
  unfold setitem. rewrite decide_True.
  - rewrite insert_app_r_alt by lia. rewrite Nat.sub_diag. reflexivity.
  - rewrite length_app. simpl. lia.
Qed.

(** The loop paints exactly the positions of the mask, whatever the
    lists held before the window it runs over. *)
Lemma highlight_window (mask : list bool) :
  ∀ (pc : list string) (po : list Qc) (base_c : string) (base_o : Qc),
    length pc = length po ->
    highlight (pd.select (seq (length pc) (length mask)) mask)
              (pc ++ replicate (length mask) base_c)
              (po ++ replicate (length mask) base_o)
    = Ok (pc ++ ((λ m : bool, if m then "red" else base_c) <$> mask),
          po ++ ((λ m : bool, if m then qz 1 else base_o) <$> mask)).
Proof.
  induction mask as [|b mask IH]; intros pc po base_c base_o Hlen.
  - reflexivity.
  - cbn [length seq replicate fmap list_fmap].
    rewrite select_cons.
    assert (Hc : length (pc ++ [if b then "red" else base_c]) = S (length pc))
      by (rewrite length_app; simpl; lia).
    assert (Ho : length (pc ++ [if b then "red" else base_c])
                 = length (po ++ [if b then qz 1 else base_o]))
      by (rewrite !length_app; simpl; lia).
    specialize (IH _ _ base_c base_o Ho). rewrite Hc in IH.
    rewrite <- !(assoc_L (++)) in IH. simpl in IH.
    destruct b.
    + cbn [highlight]. rewrite setitem_middle.
      cbn [mbind result_bind]. rewrite Hlen, setitem_middle, <- Hlen.
      exact IH.
    + exact IH.
Qed.

Lemma highlight_frame (c : string) (D : list Row) :
  highlight (pd.select (pd.index (frame D)) (pd.eq_mask (Country <$> D) c))
            (replicate (pd.len (frame D)) "lightgrey")
            (replicate (pd.len (frame D)) (qfrac 3 10))
  = Ok ((λ r, if bool_decide (Country r = c) then "red" else "lightgrey") <$> D,
        (λ r, if bool_decide (Country r = c) then qz 1 else qfrac 3 10) <$> D).
Proof.
  pose proof (highlight_window (pd.eq_mask (Country <$> D) c) [] [] "lightgrey"
                (qfrac 3 10) eq_refl) as H.
  rewrite eq_mask_length, length_fmap in H. simpl in H.
  unfold pd.index, pd.len. simpl. rewrite H.
  unfold pd.eq_mask. rewrite <- !list_fmap_compose. reflexivity.
Qed.

(** ** The callback on a table that has the five columns *)

Section Dataset.
Variable px_scatter_ols : list Qc -> list Qc -> result (list Scatter).

(** The process state after start-up on the table [D]. *)
Lemma precompute_frame (D : list Row) :
  precompute px_scatter_ols (frame D)
  = Ok {| df := frame D;
          global_fatalities := pd.sum (fatalities <$> D);
          global_teisc := pd.mean (TEIS <$> D);
          global_trend := trend_of D;
          trendline_trace := fit_trendline px_scatter_ols (frame D) |}.
Proof. reflexivity. Qed.

Lemma startup_frame (D : list Row) :
  ∃ g, startup px_scatter_ols (Ok (frame D)) = ([], Ok g)
       ∧ df g = frame D
       ∧ global_fatalities g = pd.sum (fatalities <$> D)
       ∧ global_teisc g = pd.mean (TEIS <$> D)
       ∧ global_trend g = trend_of D
       ∧ trendline_trace g = fit_trendline px_scatter_ols (frame D).
Proof. eexists. split; [reflexivity|]. simpl. auto. Qed.
End Dataset.

Lemma run_global (g : Globals) (D : list Row) clickData n_clicks triggered_id :
  df g = frame D ->
  negb (truthy clickData) || bool_decide (triggered_id = Some "btn-reset") = true ->
  update_dashboard clickData n_clicks triggered_id g = (Ok (global_view g D), g).
Proof.
  intros Hdf Hb. destruct g as [d gf gt gtr tl]. simpl in Hdf. subst d.
  unfold update_dashboard, select_state. rewrite Hb. reflexivity.
Qed.

Lemma run_filtered (g : Globals) (D : list Row) c others n_clicks triggered_id :
  df g = frame D ->
  triggered_id ≠ Some "btn-reset" ->
  update_dashboard (click c others) n_clicks triggered_id g = (Ok (filtered_view g D c), g).
Proof.
  intros Hdf Ht. destruct g as [d gf gt gtr tl]. simpl in Hdf. subst d.
  unfold update_dashboard, select_state, click.
  rewrite (bool_decide_eq_false_2 _ Ht).
  cbn [truthy negb orb click_location points location].
  unfold mbind, M_bind, read, lift, mret, M_ret.
  cbn [df pd.col_Country pd.getitem frame columns rows all_columns].
  change (pd.col_Country (frame D)) with (Ok (Country <$> D)).
  cbn beta iota.
  change (pd.boolean_mask (frame D) (pd.eq_mask (Country <$> D) c))
    with (frame (pd.select D (pd.eq_mask (Country <$> D) c))).
  rewrite select_matching. unfold filtered_view.
  change (pd.empty (frame (matching c D))) with (bool_decide (matching c D = []) || false).
  rewrite orb_false_r.
  destruct (bool_decide (matching c D = []));
    cbv beta iota; cbn [df];
    change (pd.col_Country (frame D)) with (Ok (Country <$> D));
    cbv beta iota; rewrite highlight_frame; reflexivity.
Qed.

(** ** Grouping by an integer key *)

Lemma filter_none {A} (P : A -> Prop) `{∀ x, Decision (P x)} (l : list A) :
  (∀ x, x ∈ l -> ¬ P x) -> filter P l = [].
Proof.
  induction l as [|x l IH]; intros Hl; [reflexivity|].
  rewrite filter_cons, decide_False by (apply Hl; left).
  apply IH. intros y Hy. apply Hl. right. exact Hy.
Qed.

#[local] Abbreviation add := (pd.add_to_group Z.compare).




Section GroupsZ.
Variable key : Row -> Z.


End GroupsZ.

(** ** What a returned ViewModel is made of *)

Lemma run_inversion (g : Globals) clickData n_clicks triggered_id (vm : ViewModel) :
  (update_dashboard clickData n_clicks triggered_id g).1 = Ok vm ->
  ∃ selected_country trend_df kpi_fat kpi_teis scatter_colors scatter_opacity
    map_agg xs ys text,
    select_state clickData triggered_id g
    = (Ok (selected_country, trend_df, kpi_fat, kpi_teis, scatter_colors, scatter_opacity), g)
    ∧ country_mean_teis (df g) = Ok map_agg
    ∧ pd.col_TEIS (df g) = Ok xs
    ∧ pd.col_GDP_growth_pct (df g) = Ok ys
    ∧ pd.col_Country (df g) = Ok text
    ∧ vm = {| out_map_chart := build_map map_agg;
              out_trend_chart := build_trend trend_df;
              out_scatter_chart :=
                finish_scatter
                  (add_trace (add_trace go_Figure (trendline_trace g) false)
                     (countries_trace xs ys scatter_colors scatter_opacity text) false);
              out_kpi_country := selected_country;
              out_kpi_fatalities := format_fatalities kpi_fat;
              out_kpi_teis := format_teis kpi_teis |}.
Proof.
  unfold update_dashboard. unfold mbind at 1. unfold M_bind at 1.
  pose proof (select_state_readonly clickData triggered_id g) as Hro.
  destruct (select_state clickData triggered_id g) as [[a|e] g'];
    simpl in Hro; subst g'; [|discriminate].
  destruct a as [[[[[sel trend] kf] kt] colors] opac].
  unfold mbind, M_bind, read, lift, mret, M_ret. cbn beta iota.
  destruct (country_mean_teis (df g)) as [map_agg|]; [|discriminate].
  destruct (pd.col_TEIS (df g)) as [xs|]; [|discriminate].
  destruct (pd.col_GDP_growth_pct (df g)) as [ys|]; [|discriminate].
  destruct (pd.col_Country (df g)) as [text|]; [|discriminate].
  simpl. intros [= <-].
  exists sel, trend, kf, kt, colors, opac, map_agg, xs, ys, text.
  repeat split; reflexivity.
Qed.

Lemma matching_none (c : string) (D : list Row) :
  (∀ r, r ∈ D -> Country r ≠ c) -> matching c D = [].
Proof. intros H. apply filter_none. exact H. Qed.



Lemma format_of_nothing :
  format_fatalities (pd.sum []) = "0" ∧ format_teis (pd.mean []) = "nan".
Proof. split; vm_compute; reflexivity. Qed.

(** ** The claims *)

(** C1 (the code departs from the claim).  When [read_csv] raises, the
    loader does hand back the empty frame and prints its diagnostic, but
    the next statement, [df["fatalities"].sum()], raises
    [KeyError: 'fatalities'] on the column-less frame: the import of the
    module ends with that exception and no aggregate is produced. *)
Theorem C1_failed_read_ends_startup
    (px_scatter_ols : list Qc -> list Qc -> result (list Scatter)) (e : Exn) :
  load (Raise e) = (DataFrame_empty, ["Error: csv file not found."])
  ∧ startup px_scatter_ols (Raise e)
    = (["Error: csv file not found."], Raise (KeyError "fatalities")).
Proof. split; reflexivity. Qed.

(** C2, the claim as stated fails: on a table without the [Country]
    column start-up succeeds, and the first call of the callback (no
    click, no trigger) raises [KeyError: 'Country'] to its caller. *)
Lemma C2_absent_column_raises :
  ∃ g, startup no_statsmodels (Ok no_country_frame) = ([], Ok g)
       ∧ (update_dashboard None None None g).1 = Raise (KeyError "Country").
Proof. eexists. split; reflexivity. Qed.

(** C2, amended.  On every table that has the five columns, with any
    number of rows, and for every input pair whose click payload, when
    there is one, lists at least one point, [update_dashboard] returns
    the six outputs and raises nothing.  When the table has no rows the
    two KPI strings are "0" and "nan" and the three charts are those of
    the empty series. *)
Theorem C2_total_on_five_columns
    (px_scatter_ols : list Qc -> list Qc -> result (list Scatter))
    (D : list Row) (clickData : option ClickData) (n_clicks : option nat)
    (triggered_id : option string) :
  (∀ payload, clickData = Some payload -> points payload ≠ []) ->
  ∃ g vm,
    startup px_scatter_ols (Ok (frame D)) = ([], Ok g)
    ∧ update_dashboard clickData n_clicks triggered_id g = (Ok vm, g)
    ∧ (D = [] ->
       out_kpi_fatalities vm = "0"
       ∧ out_kpi_teis vm = "nan"
       ∧ out_map_chart vm = build_map []
       ∧ out_trend_chart vm = build_trend []
       ∧ out_scatter_chart vm = scatter_of (trendline_trace g) [] [] []).
Proof.
  intros Hclick.
  destruct (startup_frame px_scatter_ols D) as (g & Hs & Hdf & Hgf & Hgt & Htr & _).
  exists g.
  destruct (negb (truthy clickData) || bool_decide (triggered_id = Some "btn-reset"))
    eqn:Hb.
  - exists (global_view g D). split; [exact Hs|]. split; [apply run_global; assumption|].
    intros ->. unfold global_view. simpl. rewrite Hgf, Hgt, Htr.
    repeat split; vm_compute; reflexivity.
  - apply orb_false_iff in Hb as [Hc Ht].
    apply bool_decide_eq_false in Ht.
    destruct clickData as [[ps]|]; [|discriminate].
    destruct ps as [|[c] others]; [exfalso; eapply Hclick; reflexivity|].
    exists (filtered_view g D c). split; [exact Hs|].
    split; [apply (run_filtered g D c others); assumption|].
    intros ->. unfold filtered_view. simpl. rewrite Htr.
    repeat split; vm_compute; reflexivity.
Qed.

Lemma C2_total_on_five_columns_witness :
  ∃ g vm,
    startup no_statsmodels (Ok (frame [])) = ([], Ok g)
    ∧ update_dashboard (click "A" []) (Some 1%nat) (Some "map-chart") g = (Ok vm, g)
    ∧ ([] = @nil Row ->
       out_kpi_fatalities vm = "0"
       ∧ out_kpi_teis vm = "nan"
       ∧ out_map_chart vm = build_map []
       ∧ out_trend_chart vm = build_trend []
       ∧ out_scatter_chart vm = scatter_of (trendline_trace g) [] [] []).
Proof.
  apply (C2_total_on_five_columns no_statsmodels [] (click "A" []) (Some 1%nat)
           (Some "map-chart")).
  intros payload [= <-]. simpl. discriminate.
Defined.



(** C10.  A click whose location matches no row returns the location
    itself as the selected-region label, "0" as the fatalities KPI and
    "nan" as the TEIS KPI. *)
Theorem C10_unmatched_click_labels
    (px_scatter_ols : list Qc -> list Qc -> result (list Scatter))
    (D : list Row) (c : string) (others : list Point) (n_clicks : option nat)
    (triggered_id : option string) :
  (∀ r, r ∈ D -> Country r ≠ c) ->
  triggered_id ≠ Some "btn-reset" ->
  ∃ g vm,
    startup px_scatter_ols (Ok (frame D)) = ([], Ok g)
    ∧ update_dashboard (click c others) n_clicks triggered_id g = (Ok vm, g)
    ∧ out_kpi_country vm = c
    ∧ out_kpi_fatalities vm = "0"
    ∧ out_kpi_teis vm = "nan".
Proof.
  intros Hnone Ht. apply matching_none in Hnone.
  destruct (startup_frame px_scatter_ols D) as (g & Hs & Hdf & _).
  exists g, (filtered_view g D c).
  split; [exact Hs|]. split; [apply run_filtered; assumption|].
  unfold filtered_view. simpl. rewrite Hnone.
  repeat split; apply format_of_nothing.
Qed.

Lemma C10_unmatched_click_labels_witness :
  ∃ g vm,
    startup no_statsmodels (Ok (frame example_table)) = ([], Ok g)
    ∧ update_dashboard (click "Atlantis" []) None (Some "map-chart") g = (Ok vm, g)
    ∧ out_kpi_country vm = "Atlantis"
    ∧ out_kpi_fatalities vm = "0"
    ∧ out_kpi_teis vm = "nan".
Proof.
  apply (C10_unmatched_click_labels no_statsmodels example_table "Atlantis" []
           None (Some "map-chart")).
  - intros r Hr. unfold example_table in Hr.
    repeat (apply elem_of_cons in Hr as [->|Hr]; [simpl; discriminate|]).
    inversion Hr.
  - discriminate.
Defined.









(** C8.  With the reset button as the trigger the callback does not
    look at the click payload: a retained payload, of any country, gives
    the result of the call without payload.  On a table with the five
    columns that result is the global view: label "Global View", the
    global KPI values, the global yearly series, and every point steel
    blue with opacity 0.6. *)
Theorem C8_reset_ignores_click :
  (∀ (g : Globals) (clickData : option ClickData) (n_clicks n_clicks' : option nat),
     update_dashboard clickData n_clicks (Some "btn-reset") g
     = update_dashboard None n_clicks' (Some "btn-reset") g)
  ∧ (∀ (px_scatter_ols : list Qc -> list Qc -> result (list Scatter))
       (D : list Row) (clickData : option ClickData) (n_clicks : option nat),
       ∃ g vm,
         startup px_scatter_ols (Ok (frame D)) = ([], Ok g)
         ∧ update_dashboard clickData n_clicks (Some "btn-reset") g = (Ok vm, g)
         ∧ out_kpi_country vm = "Global View"
         ∧ out_kpi_fatalities vm = format_fatalities (global_fatalities g)
         ∧ out_kpi_teis vm = format_teis (global_teisc g)
         ∧ out_trend_chart vm = build_trend (global_trend g)
         ∧ out_scatter_chart vm
           = scatter_of (trendline_trace g) D
               (replicate (length D) "steelblue") (replicate (length D) (qfrac 6 10))).
Proof.
  split.
  - intros g clickData n_clicks n_clicks'.
    unfold update_dashboard, select_state.
    rewrite bool_decide_eq_true_2 by reflexivity.
    rewrite orb_true_r. reflexivity.
  - intros px_scatter_ols D clickData n_clicks.
    destruct (startup_frame px_scatter_ols D) as (g & Hs & Hdf & _).
    exists g, (global_view g D). split; [exact Hs|].
    split; [|repeat split].
    apply run_global; [exact Hdf|].
    rewrite bool_decide_eq_true_2 by reflexivity. apply orb_true_r.
Qed.


(** ** The example of the specification *)

Example format_fatalities_thousands : format_fatalities (Fin (qz 1234567)) = "1,234,567".
Proof. vm_compute. reflexivity. Qed.

Example format_fatalities_tie : format_fatalities (Fin (qfrac 5 2)) = "2".
Proof. vm_compute. reflexivity. Qed.

Example format_teis_small : format_teis (Fin (qfrac 5 1000)) = "0.005".
Proof. vm_compute. reflexivity. Qed.

Example format_teis_round_up : format_teis (Fin (qfrac 12346 10000)) = "1.235".
Proof. vm_compute. reflexivity. Qed.

Example format_teis_negative : format_teis (Fin (qfrac (-12345) 10000)) = "-1.234".
Proof. vm_compute. reflexivity. Qed.

Example selecting_B :
  ∃ g vm,
    startup no_statsmodels (Ok (frame example_table)) = ([], Ok g)
    ∧ update_dashboard (click "B" []) (Some 1%nat) (Some "map-chart") g = (Ok vm, g)
    ∧ out_kpi_country vm = "B"
    ∧ out_kpi_fatalities vm = "100"
    ∧ out_kpi_teis vm = "0.900"
    ∧ (∃ trend_df,
         out_trend_chart vm = build_trend trend_df
         ∧ t_Year <$> trend_df = [2020%Z]
         ∧ format_teis ∘ t_TEIS <$> trend_df = ["0.900"]
         ∧ format_fatalities ∘ t_fatalities <$> trend_df = ["100"])
    ∧ (∃ countries,
         data (out_scatter_chart vm)
         = [(TScatter go_Scatter, false); (TScatter countries, false)]
         ∧ sc_marker_color countries = Some ["lightgrey"; "red"]).
Proof.
  destruct (startup_frame no_statsmodels example_table) as (g & Hs & Hdf & _ & _ & _ & Htl).
  exists g, (filtered_view g example_table "B").
  split; [exact Hs|]. split; [apply run_filtered; [exact Hdf|discriminate]|].
  unfold filtered_view. simpl. rewrite Htl.
  split; [reflexivity|]. split; [vm_compute; reflexivity|].
  split; [vm_compute; reflexivity|]. split.
  - eexists. split; [reflexivity|]. repeat split; vm_compute; reflexivity.
  - eexists. split; reflexivity.
Qed.

(** ** Columns present and absent *)

Lemma getitem_present {A} (d : DataFrame) (name : string) (field : Row -> A) :
  name ∈ columns d -> pd.getitem d name field = Ok (field <$> rows d).
Proof. intros H. unfold pd.getitem. rewrite decide_True by exact H. reflexivity. Qed.

Lemma getitem_absent {A} (d : DataFrame) (name : string) (field : Row -> A) :
  name ∉ columns d -> pd.getitem d name field = Raise (KeyError name).
Proof. intros H. unfold pd.getitem. rewrite decide_False by exact H. reflexivity. Qed.

Lemma getitem_ok_inv {A} (d : DataFrame) (name : string) (field : Row -> A) xs :
  pd.getitem d name field = Ok xs -> name ∈ columns d ∧ xs = field <$> rows d.
Proof.
  unfold pd.getitem. destruct (decide (name ∈ columns d)); [|discriminate].
  intros [= <-]. split; [assumption|reflexivity].
Qed.

Lemma yearly_present (d : DataFrame) :
  "Year" ∈ columns d -> "TEIS" ∈ columns d -> "fatalities" ∈ columns d ->
  yearly d = Ok (trend_of (rows d)).
Proof.
  intros HY HT HF. unfold yearly, pd.col_Year, pd.col_TEIS, pd.col_fatalities.
  rewrite !getitem_present by assumption. reflexivity.
Qed.

Lemma precompute_inv (px_scatter_ols : list Qc -> list Qc -> result (list Scatter))
    (d : DataFrame) (g : Globals) :
  precompute px_scatter_ols d = Ok g ->
  "fatalities" ∈ columns d ∧ "TEIS" ∈ columns d ∧ "Year" ∈ columns d
  ∧ g = {| df := d;
           global_fatalities := pd.sum (fatalities <$> rows d);
           global_teisc := pd.mean (TEIS <$> rows d);
           global_trend := trend_of (rows d);
           trendline_trace := fit_trendline px_scatter_ols d |}.
Proof.
  unfold precompute, yearly, pd.col_fatalities, pd.col_TEIS, pd.col_Year, pd.getitem.
  destruct (decide ("fatalities" ∈ columns d)) as [HF|]; [|discriminate].
  destruct (decide ("TEIS" ∈ columns d)) as [HT|]; [|discriminate].
  destruct (decide ("Year" ∈ columns d)) as [HY|]; [|discriminate].
  simpl. intros [= <-]. auto.
Qed.

Lemma startup_inv (px_scatter_ols : list Qc -> list Qc -> result (list Scatter))
    (read_csv : result DataFrame) (g : Globals) :
  (startup px_scatter_ols read_csv).2 = Ok g ->
  precompute px_scatter_ols (load read_csv).1 = Ok g.
Proof. unfold startup. destruct (load read_csv). simpl. auto. Qed.

(** X1.  The start-up aggregates need exactly the columns [fatalities],
    [TEIS] and [Year]: with the three present the process state is
    built around the loaded frame, whatever the other columns and the
    outcome of the regression fit; with one absent the import ends with
    the [KeyError] of the first absent one, in that order. *)
Theorem X1_precompute_needs_three_columns
    (px_scatter_ols : list Qc -> list Qc -> result (list Scatter)) (d : DataFrame) :
  ((∃ g, precompute px_scatter_ols d = Ok g ∧ df g = d)
   ↔ "fatalities" ∈ columns d ∧ "TEIS" ∈ columns d ∧ "Year" ∈ columns d)
  ∧ (∀ e, precompute px_scatter_ols d = Raise e ->
       (e = KeyError "fatalities" ∧ "fatalities" ∉ columns d)
       ∨ (e = KeyError "TEIS" ∧ "fatalities" ∈ columns d ∧ "TEIS" ∉ columns d)
       ∨ (e = KeyError "Year" ∧ "fatalities" ∈ columns d ∧ "TEIS" ∈ columns d
          ∧ "Year" ∉ columns d)).
Proof.
  split; [split|].
  - intros (g & Hg & _). apply precompute_inv in Hg. tauto.
  - intros (HF & HT & HY). eexists.
    unfold precompute, pd.col_fatalities, pd.col_TEIS.
    rewrite !getitem_present, yearly_present by assumption.
    split; reflexivity.
  - intros e. unfold precompute, yearly, pd.col_fatalities, pd.col_TEIS, pd.col_Year,
      pd.getitem.
    destruct (decide ("fatalities" ∈ columns d)) as [HF|HF];
      [|intros [= <-]; left; auto].
    destruct (decide ("TEIS" ∈ columns d)) as [HT|HT];
      [|intros [= <-]; right; left; auto].
    destruct (decide ("Year" ∈ columns d)) as [HY|HY];
      [discriminate|intros [= <-]; right; right; auto].
Qed.

(** X2.  The regression trace kept at start-up is always a scatter
    trace.  It is the empty [go.Scatter()] as soon as one of the two
    columns is absent, the fit raises, or the fitted figure has fewer
    than two traces; otherwise it is the second trace of the fitted
    figure with the line made red and dashed and the name set, all its
    other properties, the coordinates among them, untouched. *)
Theorem X2_trendline_fallback_or_restyled
    (px_scatter_ols : list Qc -> list Qc -> result (list Scatter)) (d : DataFrame) :
  ∃ s, fit_trendline px_scatter_ols d = TScatter s
       ∧ (("TEIS" ∉ columns d ∨ "GDP_growth_pct" ∉ columns d
           ∨ (∃ e, px_scatter_ols (TEIS <$> rows d) (GDP_growth_pct <$> rows d) = Raise e)
           ∨ (∃ traces, px_scatter_ols (TEIS <$> rows d) (GDP_growth_pct <$> rows d)
                        = Ok traces ∧ length traces < 2))
          ∧ s = go_Scatter
          ∨ ∃ traces t,
              px_scatter_ols (TEIS <$> rows d) (GDP_growth_pct <$> rows d) = Ok traces
              ∧ traces !! 1%nat = Some t
              ∧ sc_line_color s = Some "red"
              ∧ sc_line_dash s = Some "dash"
              ∧ sc_name s = Some "Structural Drag (Global)"
              ∧ sc_x s = sc_x t ∧ sc_y s = sc_y t ∧ sc_mode s = sc_mode t
              ∧ sc_marker_size s = sc_marker_size t
              ∧ sc_marker_color s = sc_marker_color t
              ∧ sc_marker_opacity s = sc_marker_opacity t
              ∧ sc_line_width s = sc_line_width t ∧ sc_text s = sc_text t).
Proof.
  unfold fit_trendline, pd.col_TEIS, pd.col_GDP_growth_pct, pd.getitem.
  destruct (decide ("TEIS" ∈ columns d)) as [HT|HT];
    [|eexists; split; [reflexivity|left; split; [auto|reflexivity]]].
  destruct (decide ("GDP_growth_pct" ∈ columns d)) as [HG|HG];
    [|eexists; split; [reflexivity|left; split; [auto|reflexivity]]].
  cbn [mbind result_bind].
  destruct (px_scatter_ols (TEIS <$> rows d) (GDP_growth_pct <$> rows d))
    as [traces|e] eqn:Hpx;
    [|eexists; split; [reflexivity|left; split; [eauto 6|reflexivity]]].
  cbn [mbind result_bind].
  destruct (traces !! 1%nat) as [t|] eqn:Ht.
  - eexists. split; [reflexivity|]. right. exists traces, t.
    repeat split; assumption || reflexivity.
  - eexists. split; [reflexivity|]. left. split; [|reflexivity].
    right. right. right. exists traces. split; [reflexivity|].
    apply lookup_ge_None in Ht. lia.
Qed.

(** ** The callback on an arbitrary process state *)

Lemma select_state_global (g : Globals) clickData triggered_id :
  negb (truthy clickData) || bool_decide (triggered_id = Some "btn-reset") = true ->
  select_state clickData triggered_id g
  = (Ok ("Global View", global_trend g, global_fatalities g, global_teisc g,
         replicate (pd.len (df g)) "steelblue",
         replicate (pd.len (df g)) (qfrac 6 10)), g).
Proof. intros Hb. unfold select_state. rewrite Hb. reflexivity. Qed.

Lemma highlight_rows (c : string) (d : DataFrame) :
  highlight (pd.select (pd.index d) (pd.eq_mask (Country <$> rows d) c))
            (replicate (pd.len d) "lightgrey") (replicate (pd.len d) (qfrac 3 10))
  = Ok ((λ r, if bool_decide (Country r = c) then "red" else "lightgrey") <$> rows d,
        (λ r, if bool_decide (Country r = c) then qz 1 else qfrac 3 10) <$> rows d).
Proof. exact (highlight_frame c (rows d)). Qed.

Lemma select_state_filtered (g : Globals) c others triggered_id :
  triggered_id ≠ Some "btn-reset" ->
  "Country" ∈ columns (df g) -> "TEIS" ∈ columns (df g) ->
  "fatalities" ∈ columns (df g) -> "Year" ∈ columns (df g) ->
  select_state (click c others) triggered_id g
  = (Ok (c,
         (if bool_decide (matching c (rows (df g)) = []) then global_trend g
          else trend_of (matching c (rows (df g)))),
         pd.sum (fatalities <$> matching c (rows (df g))),
         pd.mean (TEIS <$> matching c (rows (df g))),
         (λ r, if bool_decide (Country r = c) then "red" else "lightgrey") <$> rows (df g),
         (λ r, if bool_decide (Country r = c) then qz 1 else qfrac 3 10) <$> rows (df g)),
     g).
Proof.
  intros Ht HC HT HF HY. unfold select_state, click.
  rewrite (bool_decide_eq_false_2 _ Ht).
  cbn [truthy negb orb click_location points location].
  unfold mbind at 1 2 3, M_bind, read, lift. cbn beta iota.
  unfold pd.col_Country. rewrite (getitem_present _ _ _ HC). cbn beta iota.
  unfold pd.boolean_mask. rewrite select_matching.
  set (sub := {| columns := columns (df g); rows := matching c (rows (df g)) |}).
  assert (Hcols : columns sub = columns (df g)) by reflexivity.
  assert (Hempty : pd.empty sub = bool_decide (matching c (rows (df g)) = [])).
  { unfold pd.empty. simpl.
    rewrite (bool_decide_eq_false_2 (columns (df g) = []));
      [apply orb_false_r|].
    intros Heq. rewrite Heq in HC. inversion HC. }
  rewrite Hempty.
  assert (Hy : yearly sub = Ok (trend_of (matching c (rows (df g)))))
    by (apply yearly_present; rewrite Hcols; assumption).
  unfold mbind, M_bind, mret, M_ret, pd.col_fatalities, pd.col_TEIS.
  rewrite Hy.
  rewrite !(getitem_present sub) by (rewrite Hcols; assumption).
  destruct (bool_decide (matching c (rows (df g)) = []));
    cbn beta iota; cbn [fmap result_fmap];
    rewrite (getitem_present _ _ _ HC); cbn beta iota;
    rewrite highlight_rows; reflexivity.
Qed.

Lemma select_state_no_point (g : Globals) triggered_id :
  triggered_id ≠ Some "btn-reset" ->
  select_state (Some {| points := [] |}) triggered_id g = (Raise IndexError, g).
Proof.
  intros Ht. unfold select_state. rewrite (bool_decide_eq_false_2 _ Ht). reflexivity.
Qed.

(** The part of the callback after the selection branch. *)
Lemma update_dashboard_after (g : Globals) clickData n_clicks triggered_id
    selected_country trend_df kpi_fat kpi_teis scatter_colors scatter_opacity :
  select_state clickData triggered_id g
  = (Ok (selected_country, trend_df, kpi_fat, kpi_teis, scatter_colors, scatter_opacity), g) ->
  update_dashboard clickData n_clicks triggered_id g
  = (match country_mean_teis (df g) with
     | Raise e => Raise e
     | Ok map_agg =>
         match pd.col_TEIS (df g) with
         | Raise e => Raise e
         | Ok xs =>
             match pd.col_GDP_growth_pct (df g) with
             | Raise e => Raise e
             | Ok ys =>
                 match pd.col_Country (df g) with
                 | Raise e => Raise e
                 | Ok text =>
                     Ok {| out_map_chart := build_map map_agg;
                           out_trend_chart := build_trend trend_df;
                           out_scatter_chart :=
                             finish_scatter
                               (add_trace (add_trace go_Figure (trendline_trace g) false)
                                  (countries_trace xs ys scatter_colors scatter_opacity text)
                                  false);
                           out_kpi_country := selected_country;
                           out_kpi_fatalities := format_fatalities kpi_fat;
                           out_kpi_teis := format_teis kpi_teis |}
                 end
             end
         end
     end, g).
Proof.
  intros Hsel. unfold update_dashboard. unfold mbind at 1. unfold M_bind at 1.
  rewrite Hsel. unfold mbind, M_bind, read, lift, mret, M_ret. cbn beta iota.
  destruct (country_mean_teis (df g)); [|reflexivity].
  destruct (pd.col_TEIS (df g)); [|reflexivity].
  destruct (pd.col_GDP_growth_pct (df g)); [|reflexivity].
  destruct (pd.col_Country (df g)); reflexivity.
Qed.

Lemma country_mean_teis_present (d : DataFrame) :
  "Country" ∈ columns d -> "TEIS" ∈ columns d ->
  country_mean_teis d
  = Ok ((λ g : string * list Row, (g.1, pd.mean (TEIS <$> g.2)))
          <$> pd.groups String.compare (Country <$> rows d) (rows d)).
Proof.
  intros HC HT. unfold country_mean_teis, pd.col_Country, pd.col_TEIS.
  rewrite !getitem_present by assumption. reflexivity.
Qed.

(** The selection branch succeeds, after a successful start-up, as soon
    as the input is well formed and [Country] is there when needed. *)
Lemma select_state_succeeds (g : Globals) clickData triggered_id :
  "TEIS" ∈ columns (df g) -> "fatalities" ∈ columns (df g) -> "Year" ∈ columns (df g) ->
  "Country" ∈ columns (df g) ->
  (clickData = None ∨ triggered_id = Some "btn-reset"
   ∨ ∃ p ps, clickData = Some {| points := p :: ps |}) ->
  ∃ a, select_state clickData triggered_id g = (Ok a, g).
Proof.
  intros HT HF HY HC Hin.
  destruct (negb (truthy clickData) || bool_decide (triggered_id = Some "btn-reset"))
    eqn:Hb.
  - eexists. apply select_state_global, Hb.
  - apply orb_false_iff in Hb as [Hc Ht]. apply bool_decide_eq_false in Ht.
    destruct Hin as [->|[->|([c] & ps & ->)]]; [discriminate|congruence|].
    eexists. apply (select_state_filtered g c ps); assumption.
Qed.

(** X3.  After a successful start-up the callback returns a ViewModel
    exactly when the table has the columns [Country] and
    [GDP_growth_pct] and the input is one of: no click data, the reset
    trigger, or a payload that lists at least one point. *)
Theorem X3_callback_returns_iff
    (px_scatter_ols : list Qc -> list Qc -> result (list Scatter))
    (read_csv : result DataFrame) (g : Globals)
    (clickData : option ClickData) (n_clicks : option nat) (triggered_id : option string) :
  (startup px_scatter_ols read_csv).2 = Ok g ->
  (∃ vm, update_dashboard clickData n_clicks triggered_id g = (Ok vm, g))
  ↔ "Country" ∈ columns (df g) ∧ "GDP_growth_pct" ∈ columns (df g)
    ∧ (clickData = None ∨ triggered_id = Some "btn-reset"
       ∨ ∃ p ps, clickData = Some {| points := p :: ps |}).
Proof.
  intros Hs. apply startup_inv, precompute_inv in Hs as (HF & HT & HY & Hg).
  assert (Hdf : df g = (load read_csv).1) by (rewrite Hg; reflexivity).
  rewrite <- Hdf in HF, HT, HY. clear Hg Hdf. split.
  - intros [vm Hrun]. apply (f_equal fst) in Hrun. simpl in Hrun.
    apply run_inversion in Hrun
      as (s & tr & kf & kt & cs & os & m & xs & ys & tx & Hsel & _ & _ & Hy & Hc & _).
    apply getitem_ok_inv in Hy as [Hy _]. apply getitem_ok_inv in Hc as [Hc _].
    split; [exact Hc|]. split; [exact Hy|].
    destruct clickData as [[[|p ps]]|]; [|eauto|auto].
    destruct (decide (triggered_id = Some "btn-reset")) as [E|E]; [auto|].
    rewrite select_state_no_point in Hsel by exact E. discriminate.
  - intros (HC & HG & Hin).
    destruct (select_state_succeeds g clickData triggered_id HT HF HY HC Hin)
      as [[[[[[s tr] kf] kt] cs] os] Hsel].
    eexists. rewrite (update_dashboard_after _ _ _ _ _ _ _ _ _ _ Hsel).
    rewrite country_mean_teis_present by assumption.
    unfold pd.col_TEIS, pd.col_GDP_growth_pct, pd.col_Country.
    rewrite !getitem_present by assumption. reflexivity.
Qed.

Lemma X3_callback_returns_iff_witness :
  (∃ vm, update_dashboard (click "B" []) None (Some "map-chart")
           (state_of no_statsmodels (frame example_table))
         = (Ok vm,
            state_of no_statsmodels (frame example_table)))
  ↔ "Country" ∈ all_columns ∧ "GDP_growth_pct" ∈ all_columns
    ∧ (click "B" [] = None ∨ Some "map-chart" = Some "btn-reset"
       ∨ ∃ p ps, click "B" [] = Some {| points := p :: ps |}).
Proof.
  exact (X3_callback_returns_iff no_statsmodels (Ok (frame example_table)) _
           (click "B" []) None (Some "map-chart") eq_refl).
Defined.

(** X4.  A click payload whose list of points is empty makes the
    callback raise [IndexError], in every process state, unless the
    trigger is the reset button. *)
Theorem X4_payload_without_point_raises (g : Globals) (n_clicks : option nat)
    (triggered_id : option string) :
  triggered_id ≠ Some "btn-reset" ->
  update_dashboard (Some {| points := [] |}) n_clicks triggered_id g
  = (Raise IndexError, g).
Proof.
  intros Ht. unfold update_dashboard. unfold mbind at 1. unfold M_bind at 1.
  rewrite select_state_no_point by exact Ht. reflexivity.
Qed.

Lemma X4_payload_without_point_raises_witness :
  update_dashboard (Some {| points := [] |}) (Some 1%nat) (Some "map-chart")
    (state_of no_statsmodels (frame example_table))
  = (Raise IndexError,
     state_of no_statsmodels (frame example_table)).
Proof.
  apply (X4_payload_without_point_raises _ (Some 1%nat) (Some "map-chart")).
  discriminate.
Defined.

(** X5.  After a successful start-up, for a well-formed input, a table
    without the [Country] column makes the callback raise
    [KeyError: 'Country'], and a table with [Country] but without
    [GDP_growth_pct] makes it raise [KeyError: 'GDP_growth_pct']. *)
Theorem X5_absent_column_error
    (px_scatter_ols : list Qc -> list Qc -> result (list Scatter))
    (read_csv : result DataFrame) (g : Globals)
    (clickData : option ClickData) (n_clicks : option nat) (triggered_id : option string) :
  (startup px_scatter_ols read_csv).2 = Ok g ->
  (clickData = None ∨ triggered_id = Some "btn-reset"
   ∨ ∃ p ps, clickData = Some {| points := p :: ps |}) ->
  ("Country" ∉ columns (df g) ->
   update_dashboard clickData n_clicks triggered_id g = (Raise (KeyError "Country"), g))
  ∧ ("Country" ∈ columns (df g) -> "GDP_growth_pct" ∉ columns (df g) ->
     update_dashboard clickData n_clicks triggered_id g
     = (Raise (KeyError "GDP_growth_pct"), g)).
Proof.
  intros Hs Hin. apply startup_inv, precompute_inv in Hs as (HF & HT & HY & Hg).
  assert (Hdf : df g = (load read_csv).1) by (rewrite Hg; reflexivity).
  rewrite <- Hdf in HF, HT, HY. clear Hg Hdf. split.
  - intros HC.
    destruct (negb (truthy clickData) || bool_decide (triggered_id = Some "btn-reset"))
      eqn:Hb.
    + rewrite (update_dashboard_after _ _ _ _ _ _ _ _ _ _ (select_state_global _ _ _ Hb)).
      unfold country_mean_teis, pd.col_Country.
      rewrite getitem_absent by exact HC. reflexivity.
    + apply orb_false_iff in Hb as [Hc Ht]. apply bool_decide_eq_false in Ht.
      destruct Hin as [->|[->|([c] & ps & ->)]]; [discriminate|congruence|].
      unfold update_dashboard, select_state.
      rewrite (bool_decide_eq_false_2 _ Ht).
      cbn [truthy negb orb click_location points location].
      unfold mbind, M_bind, read, lift, pd.col_Country. cbn beta iota.
      rewrite getitem_absent by exact HC. reflexivity.
  - intros HC HG.
    destruct (select_state_succeeds g clickData triggered_id HT HF HY HC Hin)
      as [[[[[[s tr] kf] kt] cs] os] Hsel].
    rewrite (update_dashboard_after _ _ _ _ _ _ _ _ _ _ Hsel).
    rewrite country_mean_teis_present by assumption.
    unfold pd.col_TEIS, pd.col_GDP_growth_pct.
    rewrite getitem_present by assumption.
    rewrite getitem_absent by exact HG. reflexivity.
Qed.

Lemma X5_absent_column_error_witness :
  ("Country" ∉ columns (df (state_of no_statsmodels no_country_frame)) ->
   update_dashboard None None None (state_of no_statsmodels no_country_frame)
   = (Raise (KeyError "Country"), state_of no_statsmodels no_country_frame))
  ∧ ("Country" ∈ columns (df (state_of no_statsmodels no_country_frame)) ->
     "GDP_growth_pct" ∉ columns (df (state_of no_statsmodels no_country_frame)) ->
     update_dashboard None None None (state_of no_statsmodels no_country_frame)
     = (Raise (KeyError "GDP_growth_pct"), state_of no_statsmodels no_country_frame)).
Proof.
  apply (X5_absent_column_error no_statsmodels (Ok no_country_frame) _ None None None).
  - reflexivity.
  - left. reflexivity.
Defined.

(** ** Grouping by any ordered key *)

Section GroupsOrdered.
Context {K : Type} `{EqDecision K} (cmp : K -> K -> comparison).
Hypothesis cmp_eq : ∀ a b, cmp a b = Eq -> a = b.
Hypothesis cmp_antisym : ∀ a b, cmp a b = CompOpp (cmp b a).
Hypothesis cmp_trans : ∀ a b c, cmp a b = Lt -> cmp b c = Lt -> cmp a c = Lt.






Variable key : Row -> K.



End GroupsOrdered.

(** *** The order of strings *)



(** ** Every exception of the callback *)

Ltac split_columns g :=
  repeat match goal with
    | |- context [decide (?name ∈ columns (df g))] =>
        destruct (decide (name ∈ columns (df g)))
    end.

(** Closes a goal whose callback result is known: a returned ViewModel
    contradicts the hypothesis, a [KeyError] names an absent column. *)
Ltac key_error_or_ok :=
  cbn [fst]; intros Hraise;
  first
    [ discriminate Hraise
    | injection Hraise as <-; right; eexists;
      (split; [reflexivity|split; [|eassumption]]); unfold all_columns;
      solve [repeat first [left|right]] ].

(** X6.  The callback raises only two kinds of exception, in every
    process state: [IndexError], and then the click payload lists no
    point and the trigger is not the reset button; or the [KeyError] of
    one of the five column names, and then that column is absent from
    the table. *)
Theorem X6_only_index_and_key_errors (g : Globals) (clickData : option ClickData)
    (n_clicks : option nat) (triggered_id : option string) (e : Exn) :
  (update_dashboard clickData n_clicks triggered_id g).1 = Raise e ->
  (e = IndexError ∧ clickData = Some {| points := [] |}
   ∧ triggered_id ≠ Some "btn-reset")
  ∨ (∃ name, e = KeyError name ∧ name ∈ all_columns ∧ name ∉ columns (df g)).
Proof.
  destruct (negb (truthy clickData) || bool_decide (triggered_id = Some "btn-reset"))
    eqn:Hb.
  - rewrite (update_dashboard_after _ _ _ _ _ _ _ _ _ _ (select_state_global _ _ _ Hb)).
    unfold country_mean_teis, pd.col_Country, pd.col_TEIS, pd.col_GDP_growth_pct,
      pd.getitem, mbind, mret, result_bind, result_ret.
    split_columns g; key_error_or_ok.
  - apply orb_false_iff in Hb as [Hc Ht]. apply bool_decide_eq_false in Ht.
    destruct clickData as [[[|[c] ps]]|]; [| |discriminate].
    + unfold update_dashboard. unfold mbind at 1. unfold M_bind at 1.
      rewrite select_state_no_point by exact Ht.
      intros [= <-]. left. auto.
    + unfold update_dashboard, select_state.
      rewrite (bool_decide_eq_false_2 _ Ht).
      cbn [truthy negb orb click_location points location].
      unfold yearly, country_mean_teis, pd.col_Country, pd.col_TEIS, pd.col_fatalities,
        pd.col_Year, pd.col_GDP_growth_pct, pd.getitem.
      cbn [columns pd.boolean_mask].
      unfold mbind, M_bind, read, lift, mret, M_ret, result_bind, result_ret.
      cbn beta iota.
      split_columns g; cbn beta iota; try key_error_or_ok.
      all: destruct (pd.empty _); cbn beta iota; cbn [fmap result_fmap];
        split_columns g; cbn beta iota; try key_error_or_ok.
      all: rewrite highlight_rows; cbn beta iota;
        split_columns g; cbn beta iota; key_error_or_ok.
Qed.

Lemma X6_only_index_and_key_errors_witness :
  (KeyError "Country" = IndexError ∧ None = Some {| points := [] |}
   ∧ None ≠ Some "btn-reset")
  ∨ (∃ name, KeyError "Country" = KeyError name ∧ name ∈ all_columns
             ∧ name ∉ columns (df (state_of no_statsmodels no_country_frame))).
Proof.
  apply (X6_only_index_and_key_errors (state_of no_statsmodels no_country_frame)
           None None None (KeyError "Country")).
  reflexivity.
Defined.

(** ** The highlight loop on any list of positions *)


(** X7.  The loop that paints the selected rows, run over any list of
    positions that are all within the two lists (in any order, with
    repetitions), ends without exception, keeps the two lengths, sets
    the listed positions to red with opacity 1 and leaves every other
    position as it was. *)
Theorem X7_highlight_paints_listed_positions (idxs : list nat) :
  ∀ (scatter_colors : list string) (scatter_opacity : list Qc),
    length scatter_opacity = length scatter_colors ->
    (∀ i, i ∈ idxs -> i < length scatter_colors) ->
    ∃ colors' opacity',
      highlight idxs scatter_colors scatter_opacity = Ok (colors', opacity')
      ∧ length colors' = length scatter_colors
      ∧ length opacity' = length scatter_opacity
      ∧ (∀ i, i ∈ idxs -> colors' !! i = Some "red" ∧ opacity' !! i = Some (qz 1))
      ∧ (∀ i, i ∉ idxs ->
           colors' !! i = scatter_colors !! i ∧ opacity' !! i = scatter_opacity !! i).
Proof.
  induction idxs as [|idx rest IH]; intros colors opacity Hlen Hin.
  - exists colors, opacity. split; [reflexivity|]. split; [reflexivity|].
    split; [reflexivity|]. split; [intros i Hi; inversion Hi|auto].
  - assert (Hidx : idx < length colors) by (apply Hin; left).
    destruct (IH (<[idx:="red"]> colors) (<[idx:=qz 1]> opacity)) as
      (c' & o' & Hrun & Hc & Ho & Hred & Hkeep).
    { rewrite !length_insert. exact Hlen. }
    { intros i Hi. rewrite length_insert. apply Hin. right. exact Hi. }
    exists c', o'. rewrite !length_insert in *.
    split.
    { simpl. unfold setitem. rewrite decide_True by lia.
      cbn [mbind result_bind]. rewrite decide_True by lia.
      exact Hrun. }
    split; [exact Hc|]. split; [exact Ho|]. split.
    + intros i Hi. destruct (decide (i ∈ rest)) as [Hr|Hr]; [apply Hred, Hr|].
      apply elem_of_cons in Hi as [->|Hi]; [|contradiction].
      destruct (Hkeep _ Hr) as [-> ->].
      rewrite !list_lookup_insert_eq by lia. auto.
    + intros i Hi. apply not_elem_of_cons in Hi as [Hne Hr].
      destruct (Hkeep _ Hr) as [-> ->].
      rewrite !list_lookup_insert_ne by congruence. auto.
Qed.

Lemma X7_highlight_paints_listed_positions_witness :
  ∃ colors' opacity',
    highlight [2; 0; 2]%nat (replicate 3 "lightgrey") (replicate 3 (qfrac 3 10))
    = Ok (colors', opacity')
    ∧ length colors' = length (replicate 3 "lightgrey")
    ∧ length opacity' = length (replicate 3 (qfrac 3 10))
    ∧ (∀ i, i ∈ [2; 0; 2]%nat -> colors' !! i = Some "red" ∧ opacity' !! i = Some (qz 1))
    ∧ (∀ i, i ∉ [2; 0; 2]%nat ->
         colors' !! i = replicate 3 "lightgrey" !! i
         ∧ opacity' !! i = replicate 3 (qfrac 3 10) !! i).
Proof.
  apply (X7_highlight_paints_listed_positions [2; 0; 2]%nat).
  - reflexivity.
  - intros i Hi. simpl.
    repeat (apply elem_of_cons in Hi as [->|Hi]; [lia|]). inversion Hi.
Defined.




(** ** Sums over groups *)








(** ** The map *)



(** ** The yearly roll-up of any rows *)




(** X12.  Without click data, or with the reset button as trigger,
    the three KPI strings of a returned ViewModel are the children that
    the layout gives to the same three components when the page is
    built. *)
Theorem X12_global_kpis_match_layout (g : Globals) (clickData : option ClickData)
    (n_clicks : option nat) (triggered_id : option string) (vm : ViewModel) :
  clickData = None ∨ triggered_id = Some "btn-reset" ->
  (update_dashboard clickData n_clicks triggered_id g).1 = Ok vm ->
  kpi_outputs vm = layout_kpis g.
Proof.
  intros Hin Hrun.
  assert (Hb : negb (truthy clickData) || bool_decide (triggered_id = Some "btn-reset")
               = true).
  { destruct Hin as [->| ->]; [reflexivity|].
    rewrite bool_decide_eq_true_2 by reflexivity. apply orb_true_r. }
  apply run_inversion in Hrun
    as (s & tr & kf & kt & cs & os & m & xs & ys & tx & Hsel & _ & _ & _ & _ & ->).
  rewrite (select_state_global _ _ _ Hb) in Hsel.
  injection Hsel as <- <- <- <- <- <-. reflexivity.
Qed.

Lemma X12_global_kpis_match_layout_witness :
  kpi_outputs (global_view (state_of no_statsmodels (frame example_table)) example_table)
  = layout_kpis (state_of no_statsmodels (frame example_table)).
Proof.
  apply (X12_global_kpis_match_layout _ (click "A" []) (Some 4%nat) (Some "btn-reset")).
  - right. reflexivity.
  - rewrite (run_global _ example_table); reflexivity.
Defined.

Lemma matching_all (c : string) (D : list Row) :
  (∀ r, r ∈ D -> Country r = c) -> matching c D = D.
Proof.
  unfold matching. induction D as [|r D IH]; intros H; [reflexivity|].
  rewrite filter_cons, decide_True by (apply H; left).
  f_equal. apply IH. intros r' Hr'. apply H. right. exact Hr'.
Qed.

(** X13.  When every row of the table has the selected country,
    selecting it changes the label and the scatter styling only: the
    trend chart, the two KPI strings and the map are those of the global
    view. *)
Theorem X13_only_country_gives_global_numbers
    (px_scatter_ols : list Qc -> list Qc -> result (list Scatter))
    (D : list Row) (c : string) (others : list Point)
    (n_clicks n_clicks' : option nat) (triggered_id triggered_id' : option string) :
  (∀ r, r ∈ D -> Country r = c) ->
  triggered_id ≠ Some "btn-reset" ->
  ∃ g vm vm0,
    startup px_scatter_ols (Ok (frame D)) = ([], Ok g)
    ∧ update_dashboard (click c others) n_clicks triggered_id g = (Ok vm, g)
    ∧ update_dashboard None n_clicks' triggered_id' g = (Ok vm0, g)
    ∧ out_kpi_country vm = c
    ∧ out_kpi_country vm0 = "Global View"
    ∧ out_trend_chart vm = out_trend_chart vm0
    ∧ out_kpi_fatalities vm = out_kpi_fatalities vm0
    ∧ out_kpi_teis vm = out_kpi_teis vm0
    ∧ out_map_chart vm = out_map_chart vm0.
Proof.
  intros Hall Ht. apply matching_all in Hall.
  destruct (startup_frame px_scatter_ols D) as (g & Hs & Hdf & Hgf & Hgt & Htr & _).
  exists g, (filtered_view g D c), (global_view g D).
  split; [exact Hs|]. split; [apply run_filtered; assumption|].
  split; [apply run_global; [exact Hdf|reflexivity]|].
  unfold filtered_view, global_view. simpl. rewrite Hall, Hgf, Hgt, Htr.
  repeat (split; [reflexivity|]).
  split; [|repeat split].
  destruct (bool_decide (D = [])); reflexivity.
Qed.

Lemma X13_only_country_gives_global_numbers_witness :
  ∃ g vm vm0,
    startup no_statsmodels (Ok (frame (matching "B" example_table))) = ([], Ok g)
    ∧ update_dashboard (click "B" []) None (Some "map-chart") g = (Ok vm, g)
    ∧ update_dashboard None None None g = (Ok vm0, g)
    ∧ out_kpi_country vm = "B"
    ∧ out_kpi_country vm0 = "Global View"
    ∧ out_trend_chart vm = out_trend_chart vm0
    ∧ out_kpi_fatalities vm = out_kpi_fatalities vm0
    ∧ out_kpi_teis vm = out_kpi_teis vm0
    ∧ out_map_chart vm = out_map_chart vm0.
Proof.
  apply (X13_only_country_gives_global_numbers no_statsmodels
           (matching "B" example_table) "B" [] None None (Some "map-chart") None).
  - intros r Hr. apply list_elem_of_filter in Hr as [Hc _]. exact Hc.
  - discriminate.
Defined.




